(** * Numerical quadrature of the notebook "00a - Computing integrals"

    The notebook defines four quadrature functions over a one-dimensional
    TensorFlow tensor [h] (the partition) and an integrand [f]:
    [left_riemann_sum], [right_riemann_sum], [trapezoidal_rule] and
    [simpson_rule].  The file holds two versions of the notebook; the first
    one only has the two Riemann sums and reads the shape of a name [t].

    Two readings of the arithmetic are modelled.
    - The exact reading: a rank-1 [tf.float64] tensor is a [list R] and
      every operation is the exact operation of the real numbers.  What
      the functions compute term by term, the order of their results and
      the exceptions they raise are stated in this reading.  Rounding,
      infinities and NaN are not represented in it.
    - The float64 reading (module [F64]): a tensor is a list of binary64
      numbers and every operation rounds as IEEE 754 prescribes.  The order
      in which [tf.reduce_sum] adds is not fixed by the notebook, so it is
      a parameter there.  Identities that hold of the real numbers only up
      to rounding are refuted in this reading.

    In both readings the integrand is a scalar function applied
    elementwise ([map]), as [tf.sin] is, and Python exceptions are values
    of [exn]: a call returns a [result].

    Besides the four functions the file models the loop of the driver cell
    of the second version, which sweeps the partition size and collects the
    absolute value of each rule's result. *)

From Stdlib Require Import PrimFloat String Reals Lra Lia ZArith Bool List.
Import ListNotations.

Set Warnings "-inexact-float".

Open Scope R_scope.

(** ** Exceptions and results *)

Inductive exn : Type :=
| NameError (name : string)
| AttributeError
| InvalidArgumentError.

Inductive result (A : Type) : Type :=
| Ok (a : A)
| Raise (e : exn).

Arguments Ok {A} a.
Arguments Raise {A} e.

Definition bind {A B : Type} (m : result A) (k : A -> result B) : result B :=
  match m with
  | Ok a => k a
  | Raise e => Raise e
  end.

Notation "x <- m ;; k" := (bind m (fun x => k))
  (at level 61, m at next level, right associativity).

Definition is_ok {A : Type} (m : result A) : Prop :=
  match m with Ok _ => True | Raise _ => False end.

(** ** Rank-1 tensors and the TensorFlow operations the notebook calls *)

Definition tensor : Type := list R.

(** [h.get_shape()[0]] *)
Definition get_shape0 (h : tensor) : Z := Z.of_nat (length h).

(** [tf.slice(h, [begin], [size])]: a size of [-1] takes all the remaining
    elements; [begin] must lie in [0, dim] and [begin + size] must not
    exceed [dim], otherwise the operation raises. *)
Definition tf_slice (h : tensor) (begin size : Z) : result tensor :=
  let dim := get_shape0 h in
  if (begin <? 0)%Z || (dim <? begin)%Z then Raise InvalidArgumentError
  else
    let size' := if (size =? -1)%Z then (dim - begin)%Z else size in
    if (size' <? 0)%Z || (dim <? begin + size')%Z then Raise InvalidArgumentError
    else Ok (firstn (Z.to_nat size') (skipn (Z.to_nat begin) h)).

(** Elementwise binary operation on two tensors of the same shape. *)
Fixpoint map2 (op : R -> R -> R) (a b : tensor) : tensor :=
  match a, b with
  | x :: a', y :: b' => op x y :: map2 op a' b'
  | _, _ => []
  end.

Definition tensor_sub : tensor -> tensor -> tensor := map2 Rminus.
Definition tensor_mul : tensor -> tensor -> tensor := map2 Rmult.
Definition tensor_add : tensor -> tensor -> tensor := map2 Rplus.

(** [c * a] for a Python scalar [c] and a tensor [a]. *)
Definition scalar_mul (c : R) (a : tensor) : tensor := map (Rmult c) a.

(** [f(a)] for an elementwise integrand. *)
Definition apply (f : R -> R) (a : tensor) : tensor := map f a.

Definition reduce_sum (a : tensor) : R := fold_right Rplus 0 a.

(** [tf.reduce_mean]; on an empty tensor TensorFlow yields NaN, which the
    real-number model does not represent. *)
Definition reduce_mean (a : tensor) : R := reduce_sum a / INR (length a).

(** Python's normalisation of a slice bound against a length (positive step). *)
Definition norm_bound (len i : Z) : Z :=
  if (i <? 0)%Z then Z.max 0 (i + len) else Z.min i len.

(** Every [step]-th element of [l], the first one after skipping [cnt]. *)
Fixpoint every (step cnt : nat) (l : tensor) : tensor :=
  match l with
  | [] => []
  | x :: l' =>
      match cnt with
      | O => x :: every step (Nat.pred step) l'
      | S c => every step c l'
      end
  end.

(** [h[start:stop:step]] with a positive step. *)
Definition strided_slice (h : tensor) (start stop : Z) (step : nat) : tensor :=
  let len := get_shape0 h in
  let lo := Z.to_nat (norm_bound len start) in
  let hi := Z.to_nat (norm_bound len stop) in
  every step 0 (skipn lo (firstn hi h)).

(** [h[i]] for an integer index, negative indices counting from the end. *)
Definition index (h : tensor) (i : Z) : result R :=
  let len := get_shape0 h in
  let j := if (i <? 0)%Z then (i + len)%Z else i in
  if (j <? 0)%Z || (len <=? j)%Z then Raise InvalidArgumentError
  else Ok (nth (Z.to_nat j) h 0).

(** [tf.linspace(a, b, num)], which the notebook uses to build partitions. *)
Definition linspace (a b : R) (num : nat) : tensor :=
  map (fun i => a + INR i * ((b - a) / INR (num - 1))) (seq 0 num).

(** ** The quadrature functions (second version of the notebook) *)

Definition left_riemann_sum (f : R -> R) (h : tensor) : result R :=
  left_points <- tf_slice h 0 (get_shape0 h - 1) ;;
  right_points <- tf_slice h 1 (get_shape0 h - 1) ;;
  let intervals_length := tensor_sub right_points left_points in
  let y := apply f left_points in
  Ok (reduce_sum (tensor_mul y intervals_length)).

Definition right_riemann_sum (f : R -> R) (h : tensor) : result R :=
  left_points <- tf_slice h 0 (get_shape0 h - 1) ;;
  right_points <- tf_slice h 1 (get_shape0 h - 1) ;;
  let intervals_length := tensor_sub right_points left_points in
  let y := apply f right_points in
  Ok (reduce_sum (tensor_mul y intervals_length)).

Definition trapezoidal_rule (f : R -> R) (h : tensor) : result R :=
  left_points <- tf_slice h 0 (get_shape0 h - 1) ;;
  right_points <- tf_slice h 1 (get_shape0 h - 1) ;;
  let intervals_length := tensor_sub right_points left_points in
  let left_y := apply f left_points in
  let right_y := apply f right_points in
  let interval_height := tensor_add left_y right_y in
  Ok (reduce_sum (tensor_mul (scalar_mul (1 / 2) intervals_length) interval_height)).

Definition simpson_rule (f : R -> R) (h : tensor) : result R :=
  left_points <- tf_slice h 0 (get_shape0 h - 1) ;;
  right_points <- tf_slice h 1 (get_shape0 h - 1) ;;
  let interval_length := tensor_sub right_points left_points in
  let average_interval_lenght := reduce_mean interval_length in
  h_0 <- index h 0 ;;
  h_last <- index h (-1) ;;
  Ok (average_interval_lenght / 3 *
      (f h_0 + 2 * reduce_sum (apply f (strided_slice h 1 (-1) 2))
             + 4 * reduce_sum (apply f (strided_slice h 2 (-1) 2))
             + f h_last)).

(** ** The first version of the notebook

    Its two functions read the length from the global name [t], which no
    cell of that version binds.  A global environment maps names to
    objects; looking up an unbound name raises [NameError]. *)

Inductive pyobj : Type :=
| PyTensor (v : tensor)
| PyOther.

Definition globals : Type := list (string * pyobj).

Fixpoint lookup (name : string) (g : globals) : option pyobj :=
  match g with
  | [] => None
  | (k, v) :: g' => if String.eqb k name then Some v else lookup name g'
  end.

Definition load_global (g : globals) (name : string) : result pyobj :=
  match lookup name g with
  | Some v => Ok v
  | None => Raise (NameError name)
  end.

(** [o.get_shape()[0]] on an arbitrary object. *)
Definition obj_get_shape0 (o : pyobj) : result Z :=
  match o with
  | PyTensor v => Ok (get_shape0 v)
  | PyOther => Raise AttributeError
  end.

Module Nb1.

Definition left_riemann_sum (g : globals) (f : R -> R) (h : tensor) : result R :=
  _ <- load_global g "tf" ;;
  t <- load_global g "t" ;;
  n <- obj_get_shape0 t ;;
  left_points <- tf_slice h 0 (n - 1) ;;
  _ <- load_global g "tf" ;;
  t <- load_global g "t" ;;
  n <- obj_get_shape0 t ;;
  right_points <- tf_slice h 1 (n - 1) ;;
  let intervals_length := tensor_sub right_points left_points in
  let y := apply f left_points in
  Ok (reduce_sum (tensor_mul y intervals_length)).

Definition right_riemann_sum (g : globals) (f : R -> R) (h : tensor) : result R :=
  _ <- load_global g "tf" ;;
  t <- load_global g "t" ;;
  n <- obj_get_shape0 t ;;
  left_points <- tf_slice h 0 (n - 1) ;;
  _ <- load_global g "tf" ;;
  t <- load_global g "t" ;;
  n <- obj_get_shape0 t ;;
  right_points <- tf_slice h 1 (n - 1) ;;
  let intervals_length := tensor_sub right_points left_points in
  let y := apply f right_points in
  Ok (reduce_sum (tensor_mul y intervals_length)).

(** The names bound at module level once the cells of the first version
    have run: the imports, the two functions, and the assignments of the
    driver cell up to the point where it stops. *)
Definition nb_globals : globals :=
  [ ("pi", PyOther); ("tf", PyOther); ("plt", PyOther);
    ("left_riemann_sum", PyOther); ("right_riemann_sum", PyOther);
    ("left_errors", PyOther); ("right_errors", PyOther);
    ("x_0", PyOther); ("x_1", PyOther);
    ("n", PyOther) ]%string.

End Nb1.

(** ** Specification-side notions *)

(** [sum_n n g] is the sum of [g i] for [i] from [0] to [n - 1]. *)
Fixpoint sum_n (n : nat) (g : nat -> R) : R :=
  match n with
  | O => 0
  | S k => sum_n k g + g k
  end.

(** Sum of [g a b] over the consecutive pairs [(a, b)] of a partition. *)
Fixpoint adj_sum (g : R -> R -> R) (h : tensor) : R :=
  match h with
  | a :: ((b :: _) as h') => g a b + adj_sum g h'
  | _ => 0
  end.

Definition strictly_increasing (h : tensor) : Prop :=
  forall i, (S i < length h)%nat -> nth i h 0 < nth (S i) h 0.


(** Equal spacing between consecutive points. *)
Definition uniform (h : tensor) : Prop :=
  exists d, forall i, (S i < length h)%nat -> nth (S i) h 0 - nth i h 0 = d.

(** [h] starts at [a] and ends at [b]. *)
Definition spans (a b : R) (h : tensor) : Prop :=
  nth 0 h 0 = a /\ last h 0 = b.

(** The points strictly between the first and the last one. *)
Definition interior (h : tensor) : tensor := skipn 1 (firstn (length h - 1) h).

(** Mean of the consecutive differences [h[i+1] - h[i]]. *)
Definition average_spacing (h : tensor) : R :=
  sum_n (length h - 1) (fun i => nth (S i) h 0 - nth i h 0) / INR (length h - 1).

(** Sum of [f] at the interior indices [i] ([0 < i < length h - 1]) that
    satisfy [p]. *)
Definition interior_sum (p : nat -> bool) (f : R -> R) (h : tensor) : R :=
  reduce_sum (map (fun i => f (nth i h 0)) (filter p (seq 1 (length h - 2)))).

(** Simpson's formula as the specification and the notebook's text state
    it: weight 2 on the even interior indices, weight 4 on the odd ones. *)
Definition simpson_formula (f : R -> R) (h : tensor) : R :=
  average_spacing h / 3 *
  (f (nth 0 h 0) + 2 * interior_sum Nat.even f h
                 + 4 * interior_sum Nat.odd f h + f (last h 0)).

(** ** The driver cell of the second version

    The cell starts from four empty lists, sweeps [n] over [range(3, 16)],
    builds the partition [tf.linspace(x_0, x_1, 2**n+1)] and appends the
    absolute value of each rule applied to [tf.sin] to one list per rule.
    The integrand, the two endpoints and the values of [n] are parameters
    of the model. *)




(** ** The float64 reading

    The same operations on binary64 numbers.  [reduce_sum] is a parameter
    of the three rules: the orders considered are left to right, right to
    left, by halves, and by [lanes] interleaved accumulators that are
    folded at the end, as a vectorised reduction adds. *)

Module F64.

Definition tensor : Type := list float.

Definition get_shape0 (h : tensor) : Z := Z.of_nat (length h).

Definition tf_slice (h : tensor) (begin size : Z) : result tensor :=
  let dim := get_shape0 h in
  if (begin <? 0)%Z || (dim <? begin)%Z then Raise InvalidArgumentError
  else
    let size' := if (size =? -1)%Z then (dim - begin)%Z else size in
    if (size' <? 0)%Z || (dim <? begin + size')%Z then Raise InvalidArgumentError
    else Ok (firstn (Z.to_nat size') (skipn (Z.to_nat begin) h)).

Fixpoint map2 (op : float -> float -> float) (a b : tensor) : tensor :=
  match a, b with
  | x :: a', y :: b' => op x y :: map2 op a' b'
  | _, _ => []
  end.

Definition tensor_sub : tensor -> tensor -> tensor := map2 PrimFloat.sub.
Definition tensor_mul : tensor -> tensor -> tensor := map2 PrimFloat.mul.
Definition tensor_add : tensor -> tensor -> tensor := map2 PrimFloat.add.
Definition scalar_mul (c : float) (a : tensor) : tensor := map (PrimFloat.mul c) a.
Definition apply (f : float -> float) (a : tensor) : tensor := map f a.

(** [((0 + a0) + a1) + ...] *)
Definition sum_ltr (a : tensor) : float := fold_left PrimFloat.add a 0%float.

(** [a0 + (a1 + (... + 0))] *)
Definition sum_rtl (a : tensor) : float := fold_right PrimFloat.add 0%float a.

(** The sum of the first half plus the sum of the second half. *)
Fixpoint sum_halves (fuel : nat) (a : tensor) : float :=
  match a with
  | [] => 0%float
  | [x] => x
  | _ =>
      match fuel with
      | O => sum_ltr a
      | S k =>
          let m := Nat.div2 (length a) in
          (sum_halves k (firstn m a) + sum_halves k (skipn m a))%float
      end
  end.

Definition sum_pairwise (a : tensor) : float := sum_halves (length a) a.

(** Adds whole packets of [lanes] consecutive elements into [acc], lane by
    lane; returns the accumulators and the elements left over. *)
Fixpoint accumulate (fuel lanes : nat) (acc a : tensor) : tensor * tensor :=
  match fuel with
  | O => (acc, a)
  | S k =>
      if (lanes <=? length a)%nat
      then accumulate k lanes (map2 PrimFloat.add acc (firstn lanes a))
                      (skipn lanes a)
      else (acc, a)
  end.

(** Folds the accumulators by adding the upper half onto the lower one. *)
Fixpoint fold_lanes (fuel : nat) (acc : tensor) : float :=
  match acc with
  | [] => 0%float
  | [x] => x
  | _ =>
      match fuel with
      | O => sum_ltr acc
      | S k =>
          let m := Nat.div2 (length acc) in
          fold_lanes k (map2 PrimFloat.add (firstn m acc) (skipn m acc))
      end
  end.

Definition sum_lanes (lanes : nat) (a : tensor) : float :=
  let '(acc, rest) := accumulate (length a) lanes (repeat 0%float lanes) a in
  (sum_ltr rest + fold_lanes lanes acc)%float.

(** The summation orders considered for [tf.reduce_sum]. *)
Definition reductions : list (tensor -> float) :=
  [sum_ltr; sum_rtl; sum_pairwise; sum_lanes 2; sum_lanes 4].

(** A natural number as a float (exact below [2^53]). *)
Fixpoint of_pos (p : positive) : float :=
  match p with
  | xH => 1%float
  | xO q => (2 * of_pos q)%float
  | xI q => (2 * of_pos q + 1)%float
  end.

Definition of_nat (n : nat) : float :=
  match N.of_nat n with
  | N0 => 0%float
  | Npos p => of_pos p
  end.

(** [tf.linspace(start, stop, num)]: the two ends as given, and between
    them [start + delta * i] with [delta = (stop - start) / (num - 1)]. *)
Definition linspace (start stop : float) (num : nat) : tensor :=
  match num with
  | O => []
  | S O => [start]
  | S (S m) =>
      let delta := ((stop - start) / of_nat (num - 1))%float in
      start :: map (fun i => (start + delta * of_nat i)%float) (seq 1 m) ++ [stop]
  end.

Definition left_riemann_sum (reduce_sum : tensor -> float)
  (f : float -> float) (h : tensor) : result float :=
  left_points <- tf_slice h 0 (get_shape0 h - 1) ;;
  right_points <- tf_slice h 1 (get_shape0 h - 1) ;;
  let intervals_length := tensor_sub right_points left_points in
  let y := apply f left_points in
  Ok (reduce_sum (tensor_mul y intervals_length)).

Definition right_riemann_sum (reduce_sum : tensor -> float)
  (f : float -> float) (h : tensor) : result float :=
  left_points <- tf_slice h 0 (get_shape0 h - 1) ;;
  right_points <- tf_slice h 1 (get_shape0 h - 1) ;;
  let intervals_length := tensor_sub right_points left_points in
  let y := apply f right_points in
  Ok (reduce_sum (tensor_mul y intervals_length)).

Definition trapezoidal_rule (reduce_sum : tensor -> float)
  (f : float -> float) (h : tensor) : result float :=
  left_points <- tf_slice h 0 (get_shape0 h - 1) ;;
  right_points <- tf_slice h 1 (get_shape0 h - 1) ;;
  let intervals_length := tensor_sub right_points left_points in
  let left_y := apply f left_points in
  let right_y := apply f right_points in
  let interval_height := tensor_add left_y right_y in
  Ok (reduce_sum
        (tensor_mul (scalar_mul (1 / 2)%float intervals_length) interval_height)).

End F64.

(** ** Further specification-side notions *)



(** ** The two slices of a non-empty partition *)

Lemma shape_minus_one (x : R) (t : tensor) :
  (get_shape0 (x :: t) - 1)%Z = Z.of_nat (length t).
Proof. unfold get_shape0. simpl length. lia. Qed.

Lemma left_points_cons (x : R) (t : tensor) :
  tf_slice (x :: t) 0 (get_shape0 (x :: t) - 1) = Ok (removelast (x :: t)).
Proof.
  rewrite shape_minus_one. unfold tf_slice, get_shape0. simpl length.
  replace (0 <? 0)%Z with false by reflexivity.
  replace (Z.of_nat (S (length t)) <? 0)%Z with false by (symmetry; apply Z.ltb_ge; lia).
  replace (Z.of_nat (length t) =? -1)%Z with false by (symmetry; apply Z.eqb_neq; lia).
  replace (Z.of_nat (length t) <? 0)%Z with false by (symmetry; apply Z.ltb_ge; lia).
  replace (Z.of_nat (S (length t)) <? 0 + Z.of_nat (length t))%Z with false
    by (symmetry; apply Z.ltb_ge; lia).
  cbn [orb Z.to_nat skipn]. rewrite Nat2Z.id. f_equal.
  rewrite removelast_firstn_len. reflexivity.
Qed.

Lemma right_points_cons (x : R) (t : tensor) :
  tf_slice (x :: t) 1 (get_shape0 (x :: t) - 1) = Ok t.
Proof.
  rewrite shape_minus_one. unfold tf_slice, get_shape0. simpl length.
  replace (1 <? 0)%Z with false by reflexivity.
  replace (Z.of_nat (S (length t)) <? 1)%Z with false by (symmetry; apply Z.ltb_ge; lia).
  replace (Z.of_nat (length t) =? -1)%Z with false by (symmetry; apply Z.eqb_neq; lia).
  replace (Z.of_nat (length t) <? 0)%Z with false by (symmetry; apply Z.ltb_ge; lia).
  replace (Z.of_nat (S (length t)) <? 1 + Z.of_nat (length t))%Z with false
    by (symmetry; apply Z.ltb_ge; lia).
  cbn [orb]. change (Z.to_nat 1) with 1%nat. cbn [skipn].
  rewrite Nat2Z.id, firstn_all. reflexivity.
Qed.

Lemma right_points_nil :
  tf_slice [] 1 (get_shape0 [] - 1) = Raise InvalidArgumentError.
Proof. reflexivity. Qed.

(** The sums the three sub-interval rules compute, as sums over the
    consecutive pairs of the partition. *)

Ltac pairs_induction x t :=
  revert x; induction t as [|? t IH]; intro x;
  [ reflexivity
  | match goal with
    | |- context [removelast (x :: ?y :: t)] =>
        change (removelast (x :: y :: t)) with (x :: removelast (y :: t))
    end;
    cbn [tensor_mul tensor_sub tensor_add scalar_mul apply map map2
         reduce_sum fold_right adj_sum];
    f_equal; apply IH ].

Lemma left_sum_pairs (f : R -> R) (x : R) (t : tensor) :
  let left_points := removelast (x :: t) in
  reduce_sum (tensor_mul (apply f left_points) (tensor_sub t left_points))
  = adj_sum (fun a b => f a * (b - a)) (x :: t).
Proof. cbv zeta. pairs_induction x t. Qed.

Lemma right_sum_pairs (f : R -> R) (x : R) (t : tensor) :
  let left_points := removelast (x :: t) in
  reduce_sum (tensor_mul (apply f t) (tensor_sub t left_points))
  = adj_sum (fun a b => f b * (b - a)) (x :: t).
Proof. cbv zeta. pairs_induction x t. Qed.

Lemma trapezoid_sum_pairs (f : R -> R) (x : R) (t : tensor) :
  let left_points := removelast (x :: t) in
  reduce_sum (tensor_mul (scalar_mul (1 / 2) (tensor_sub t left_points))
                         (tensor_add (apply f left_points) (apply f t)))
  = adj_sum (fun a b => 1 / 2 * (b - a) * (f a + f b)) (x :: t).
Proof. cbv zeta. pairs_induction x t. Qed.

Lemma left_riemann_sum_cons (f : R -> R) (x : R) (t : tensor) :
  left_riemann_sum f (x :: t) = Ok (adj_sum (fun a b => f a * (b - a)) (x :: t)).
Proof.
  unfold left_riemann_sum. rewrite left_points_cons, right_points_cons.
  cbn [bind]. f_equal. apply left_sum_pairs.
Qed.

Lemma right_riemann_sum_cons (f : R -> R) (x : R) (t : tensor) :
  right_riemann_sum f (x :: t) = Ok (adj_sum (fun a b => f b * (b - a)) (x :: t)).
Proof.
  unfold right_riemann_sum. rewrite left_points_cons, right_points_cons.
  cbn [bind]. f_equal. apply right_sum_pairs.
Qed.

Lemma trapezoidal_rule_cons (f : R -> R) (x : R) (t : tensor) :
  trapezoidal_rule f (x :: t)
  = Ok (adj_sum (fun a b => 1 / 2 * (b - a) * (f a + f b)) (x :: t)).
Proof.
  unfold trapezoidal_rule. rewrite left_points_cons, right_points_cons.
  cbn [bind]. f_equal. apply trapezoid_sum_pairs.
Qed.

(** ** Sums over pairs and sums over indices *)

Lemma sum_n_ext (n : nat) (g k : nat -> R) :
  (forall i, (i < n)%nat -> g i = k i) -> sum_n n g = sum_n n k.
Proof.
  induction n as [|n IH]; intro E; cbn; [reflexivity|].
  rewrite IH, E; auto.
Qed.

Lemma sum_n_shift (n : nat) (g : nat -> R) :
  sum_n (S n) g = g O + sum_n n (fun i => g (S i)).
Proof.
  induction n as [|n IH].
  - cbn. ring.
  - change (sum_n (S (S n)) g) with (sum_n (S n) g + g (S n)).
    rewrite IH. cbn. ring.
Qed.

Lemma adj_sum_cons2 (g : R -> R -> R) (a b : R) (h : tensor) :
  adj_sum g (a :: b :: h) = g a b + adj_sum g (b :: h).
Proof. reflexivity. Qed.

Lemma adj_sum_index (g : R -> R -> R) (h : tensor) (n : nat) :
  length h = S n ->
  adj_sum g h = sum_n n (fun i => g (nth i h 0) (nth (S i) h 0)).
Proof.
  revert n. induction h as [|a h IH]; intros n L; [discriminate|].
  destruct h as [|b h].
  - injection L as <-. reflexivity.
  - destruct n as [|n]; [discriminate|].
    rewrite sum_n_shift, adj_sum_cons2. f_equal.
    apply IH. cbn in L |- *. lia.
Qed.

Lemma adj_sum_ext (g k : R -> R -> R) (h : tensor) :
  (forall a b, g a b = k a b) -> adj_sum g h = adj_sum k h.
Proof.
  intro E. induction h as [|a [|b h] IH]; cbn; try reflexivity.
  cbn in IH. now rewrite E, IH.
Qed.



(** Telescoping: the increments of [u] along the partition add up to the
    increment between the two ends. *)
Lemma adj_sum_telescope (u : R -> R) (x : R) (t : tensor) :
  adj_sum (fun a b => u b - u a) (x :: t) = u (last (x :: t) 0) - u x.
Proof.
  revert x. induction t as [|y t IH]; intro x.
  - cbn. ring.
  - change (last (x :: y :: t) 0) with (last (y :: t) 0).
    rewrite adj_sum_cons2, IH. ring.
Qed.

(** ** Riemann sums *)

(** C4. For a partition [h] of length [n + 1] with [n >= 1],
    [left_riemann_sum f h] returns the sum over [i < n] of
    [(h[i+1] - h[i]) * f(h[i])] and [right_riemann_sum f h] the sum over
    [i < n] of [(h[i+1] - h[i]) * f(h[i+1])]. *)
Theorem riemann_sums_formula (f : R -> R) (h : tensor) (n : nat) :
  length h = S n -> (1 <= n)%nat ->
  left_riemann_sum f h
    = Ok (sum_n n (fun i => (nth (S i) h 0 - nth i h 0) * f (nth i h 0)))
  /\ right_riemann_sum f h
    = Ok (sum_n n (fun i => (nth (S i) h 0 - nth i h 0) * f (nth (S i) h 0))).
Proof.
  intros L _. destruct h as [|x t]; [discriminate|].
  rewrite left_riemann_sum_cons, right_riemann_sum_cons.
  rewrite !(adj_sum_index _ _ n L).
  split; f_equal; apply sum_n_ext; intros; ring.
Qed.

Lemma riemann_sums_formula_witness :
  let f := fun x => x * x in
  let h := [0; 1; 3] in
  length h = 3%nat /\ (1 <= 2)%nat /\
  left_riemann_sum f h
    = Ok (sum_n 2 (fun i => (nth (S i) h 0 - nth i h 0) * f (nth i h 0)))
  /\ right_riemann_sum f h
    = Ok (sum_n 2 (fun i => (nth (S i) h 0 - nth i h 0) * f (nth (S i) h 0))).
Proof.
  cbv zeta. split; [reflexivity|]. split; [lia|].
  apply (riemann_sums_formula (fun x => x * x) [0; 1; 3] 2); [reflexivity | lia].
Defined.

(** ** Trapezoidal rule *)






(** ** Simpson's rule: what the code computes *)

Lemma every2_nth (l : tensor) :
  every 2 0 l = map (fun j => nth j l 0) (filter Nat.even (seq 0 (length l)))
  /\ every 2 1 l = map (fun j => nth j l 0) (filter Nat.odd (seq 0 (length l))).
Proof.
  induction l as [|x l [IHe IHo]]; [split; reflexivity|].
  cbn [length seq]. rewrite <- seq_shift.
  cbn [filter Nat.even Nat.odd negb every Nat.pred map].
  rewrite !filter_map_swap, !map_map. cbn [nth].
  rewrite IHe, IHo. split.
  - f_equal. f_equal. apply filter_ext. intro a. symmetry. apply Nat.even_succ.
  - f_equal. apply filter_ext. intro a. symmetry. apply Nat.odd_succ.
Qed.

Lemma every2_skip1 (l : tensor) : every 2 0 (skipn 1 l) = every 2 1 l.
Proof. destruct l; reflexivity. Qed.

Lemma length_interior (h : tensor) : length (interior h) = (length h - 2)%nat.
Proof. unfold interior. rewrite length_skipn, length_firstn. lia. Qed.

Lemma nth_interior (h : tensor) (j : nat) :
  (j < length h - 2)%nat -> nth j (interior h) 0 = nth (S j) h 0.
Proof.
  intro Hj. unfold interior. rewrite nth_skipn, nth_firstn.
  replace (1 + j <? length h - 1)%nat with true; [reflexivity|].
  symmetry. apply Nat.ltb_lt. lia.
Qed.

Lemma interior_select (p q : nat -> bool) (h : tensor) :
  (forall j, q (S j) = p j) ->
  map (fun j => nth j (interior h) 0) (filter p (seq 0 (length (interior h))))
  = map (fun i => nth i h 0) (filter q (seq 1 (length h - 2))).
Proof.
  intro E. rewrite length_interior, <- seq_shift, filter_map_swap, map_map.
  rewrite (filter_ext _ _ E).
  apply map_ext_in. intros j Hj. apply nth_interior.
  apply filter_In in Hj. destruct Hj as [Hj _]. apply in_seq in Hj. lia.
Qed.

Lemma strided_slice_odd (x : R) (t : tensor) :
  strided_slice (x :: t) 1 (-1) 2
  = map (fun i => nth i (x :: t) 0) (filter Nat.odd (seq 1 (length (x :: t) - 2))).
Proof.
  unfold strided_slice, get_shape0, norm_bound.
  replace (1 <? 0)%Z with false by reflexivity.
  replace (-1 <? 0)%Z with true by reflexivity.
  replace (Z.to_nat (Z.min 1 (Z.of_nat (length (x :: t))))) with 1%nat
    by (cbn [length]; lia).
  replace (Z.to_nat (Z.max 0 (-1 + Z.of_nat (length (x :: t)))))
    with (length (x :: t) - 1)%nat by (cbn [length]; lia).
  fold (interior (x :: t)).
  rewrite (proj1 (every2_nth _)). apply interior_select.
  intro j. apply Nat.odd_succ.
Qed.

Lemma strided_slice_even (x : R) (t : tensor) :
  strided_slice (x :: t) 2 (-1) 2
  = map (fun i => nth i (x :: t) 0) (filter Nat.even (seq 1 (length (x :: t) - 2))).
Proof.
  destruct t as [|y t]; [reflexivity|].
  unfold strided_slice, get_shape0, norm_bound.
  replace (2 <? 0)%Z with false by reflexivity.
  replace (-1 <? 0)%Z with true by reflexivity.
  replace (Z.to_nat (Z.min 2 (Z.of_nat (length (x :: y :: t))))) with 2%nat
    by (cbn [length]; lia).
  replace (Z.to_nat (Z.max 0 (-1 + Z.of_nat (length (x :: y :: t)))))
    with (length (x :: y :: t) - 1)%nat by (cbn [length]; lia).
  change (skipn 2 ?l) with (skipn 1 (skipn 1 l)).
  fold (interior (x :: y :: t)).
  rewrite every2_skip1, (proj2 (every2_nth _)). apply interior_select.
  intro j. apply Nat.even_succ.
Qed.

Lemma nth_length_last (x : R) (t : tensor) :
  nth (length t) (x :: t) 0 = last (x :: t) 0.
Proof.
  revert x. induction t as [|y t IH]; intro x; [reflexivity|].
  change (last (x :: y :: t) 0) with (last (y :: t) 0).
  rewrite <- IH. reflexivity.
Qed.

Lemma index_first (x : R) (t : tensor) : index (x :: t) 0 = Ok x.
Proof.
  unfold index, get_shape0.
  replace (0 <? 0)%Z with false by reflexivity.
  replace (Z.of_nat (length (x :: t)) <=? 0)%Z with false
    by (symmetry; apply Z.leb_gt; cbn [length]; lia).
  reflexivity.
Qed.

Lemma index_last (x : R) (t : tensor) : index (x :: t) (-1) = Ok (last (x :: t) 0).
Proof.
  unfold index, get_shape0.
  replace (-1 <? 0)%Z with true by reflexivity.
  replace (-1 + Z.of_nat (length (x :: t)))%Z with (Z.of_nat (length t))
    by (cbn [length]; lia).
  replace (Z.of_nat (length t) <? 0)%Z with false by (symmetry; apply Z.ltb_ge; lia).
  replace (Z.of_nat (length (x :: t)) <=? Z.of_nat (length t))%Z with false
    by (symmetry; apply Z.leb_gt; cbn [length]; lia).
  cbn [orb]. rewrite Nat2Z.id, nth_length_last. reflexivity.
Qed.

Lemma length_interval_length (x : R) (t : tensor) :
  length (tensor_sub t (removelast (x :: t))) = length t.
Proof.
  revert x. induction t as [|y t IH]; intro x; [reflexivity|].
  change (removelast (x :: y :: t)) with (x :: removelast (y :: t)).
  cbn [tensor_sub map2 length]. f_equal. apply IH.
Qed.

Lemma interval_length_sum (x : R) (t : tensor) :
  reduce_sum (tensor_sub t (removelast (x :: t)))
  = adj_sum (fun a b => b - a) (x :: t).
Proof. pairs_induction x t. Qed.

Lemma reduce_mean_interval_length (x : R) (t : tensor) :
  reduce_mean (tensor_sub t (removelast (x :: t))) = average_spacing (x :: t).
Proof.
  unfold reduce_mean, average_spacing.
  rewrite length_interval_length, interval_length_sum.
  replace (length (x :: t) - 1)%nat with (length t) by (cbn [length]; lia).
  rewrite (adj_sum_index _ (x :: t) (length t) eq_refl). reflexivity.
Qed.

(** On every non-empty partition the code computes Simpson's sum with the
    two interior weights exchanged: weight 2 on the odd interior indices
    and weight 4 on the even ones. *)
Lemma simpson_rule_computes (f : R -> R) (x : R) (t : tensor) :
  simpson_rule f (x :: t)
  = Ok (average_spacing (x :: t) / 3 *
        (f x + 2 * interior_sum Nat.odd f (x :: t)
             + 4 * interior_sum Nat.even f (x :: t) + f (last (x :: t) 0))).
Proof.
  unfold simpson_rule.
  rewrite left_points_cons, right_points_cons, index_first, index_last.
  cbn [bind]. rewrite reduce_mean_interval_length.
  rewrite strided_slice_odd, strided_slice_even.
  unfold interior_sum, apply. rewrite !map_map. reflexivity.
Qed.

(** ** Non-empty partitions are always accepted *)

Lemma nonempty_cons (h : tensor) :
  (1 <= length h)%nat -> exists x t, h = x :: t.
Proof.
  destruct h as [|x t]; cbn; intro L; [lia|]. now exists x, t.
Qed.

Lemma left_riemann_sum_nonempty (f : R -> R) (h : tensor) :
  (1 <= length h)%nat ->
  left_riemann_sum f h = Ok (adj_sum (fun a b => f a * (b - a)) h).
Proof.
  intro L. destruct (nonempty_cons h L) as (x & t & ->).
  apply left_riemann_sum_cons.
Qed.

Lemma right_riemann_sum_nonempty (f : R -> R) (h : tensor) :
  (1 <= length h)%nat ->
  right_riemann_sum f h = Ok (adj_sum (fun a b => f b * (b - a)) h).
Proof.
  intro L. destruct (nonempty_cons h L) as (x & t & ->).
  apply right_riemann_sum_cons.
Qed.

Lemma trapezoidal_rule_nonempty (f : R -> R) (h : tensor) :
  (1 <= length h)%nat ->
  trapezoidal_rule f h
  = Ok (adj_sum (fun a b => 1 / 2 * (b - a) * (f a + f b)) h).
Proof.
  intro L. destruct (nonempty_cons h L) as (x & t & ->).
  apply trapezoidal_rule_cons.
Qed.

Lemma simpson_rule_nonempty (f : R -> R) (h : tensor) :
  (1 <= length h)%nat -> exists s, simpson_rule f h = Ok s.
Proof.
  intro L. destruct (nonempty_cons h L) as (x & t & ->).
  eexists. apply simpson_rule_computes.
Qed.

Lemma adj_sum_short (g : R -> R -> R) (h : tensor) :
  length h = 1%nat -> adj_sum g h = 0.
Proof.
  destruct h as [|x [|y t]]; cbn; intro L; try lia. reflexivity.
Qed.

(** The empty partition is the only one on which a call fails, and the
    failure comes from [tf.slice], whose begin index 1 is out of range. *)
Lemma empty_partition_raises (f : R -> R) :
  left_riemann_sum f [] = Raise InvalidArgumentError
  /\ right_riemann_sum f [] = Raise InvalidArgumentError
  /\ trapezoidal_rule f [] = Raise InvalidArgumentError
  /\ simpson_rule f [] = Raise InvalidArgumentError.
Proof. repeat split; reflexivity. Qed.

(** C2, as the code behaves.  None of the four functions validates its
    partition: on every non-empty partition, increasing or not, the two
    Riemann sums and the trapezoidal rule return a number (0 when the
    length is 1), and [simpson_rule] returns a number on every partition of
    length at least 2, of odd or even length. *)
Theorem partition_accepted_unchecked (f : R -> R) (h : tensor) :
  (1 <= length h)%nat ->
  exists l r tr,
    left_riemann_sum f h = Ok l /\ right_riemann_sum f h = Ok r /\
    trapezoidal_rule f h = Ok tr /\
    (length h = 1%nat -> l = 0 /\ r = 0 /\ tr = 0) /\
    ((2 <= length h)%nat -> exists s, simpson_rule f h = Ok s).
Proof.
  intro L. eexists. eexists. eexists.
  split; [apply left_riemann_sum_nonempty, L|].
  split; [apply right_riemann_sum_nonempty, L|].
  split; [apply trapezoidal_rule_nonempty, L|].
  split.
  - intro L1. rewrite !adj_sum_short by exact L1. repeat split; reflexivity.
  - intros _. apply simpson_rule_nonempty, L.
Qed.

Lemma partition_accepted_unchecked_witness :
  let f := fun x : R => x in
  let h := [0; 2; 1; 5] in
  (1 <= length h)%nat /\
  exists l r tr,
    left_riemann_sum f h = Ok l /\ right_riemann_sum f h = Ok r /\
    trapezoidal_rule f h = Ok tr /\
    (length h = 1%nat -> l = 0 /\ r = 0 /\ tr = 0) /\
    ((2 <= length h)%nat -> exists s, simpson_rule f h = Ok s).
Proof.
  cbv zeta.
  assert (L : (1 <= length [0; 2; 1; 5])%nat) by (cbn; lia).
  split; [exact L|].
  exact (partition_accepted_unchecked (fun x => x) [0; 2; 1; 5] L).
Defined.


(** ** Exactness on simple integrands *)

(** In exact real arithmetic the two Riemann sums and the trapezoidal rule
    integrate a constant exactly on every partition of length at least 2;
    in float64 the equality holds up to rounding only. *)
Lemma constant_exact_subinterval_rules (c : R) (h : tensor) :
  strictly_increasing h -> (2 <= length h)%nat ->
  left_riemann_sum (fun _ => c) h = Ok (c * (last h 0 - nth 0 h 0))
  /\ right_riemann_sum (fun _ => c) h = Ok (c * (last h 0 - nth 0 h 0))
  /\ trapezoidal_rule (fun _ => c) h = Ok (c * (last h 0 - nth 0 h 0)).
Proof.
  intros _ L. destruct h as [|x t]; [cbn in L; lia|].
  rewrite left_riemann_sum_cons, right_riemann_sum_cons, trapezoidal_rule_cons.
  cbn [nth].
  assert (T : adj_sum (fun a b => c * b - c * a) (x :: t)
              = c * (last (x :: t) 0 - x)).
  { rewrite (adj_sum_telescope (fun u => c * u)). ring. }
  rewrite <- T.
  repeat split; f_equal; apply adj_sum_ext; intros; field.
Qed.

Lemma uniform_0_half_1 : uniform [0; 1 / 2; 1].
Proof.
  exists (1 / 2). intros i Hi.
  destruct i as [|[|i]]; cbn in *; try lra; lia.
Defined.

(** ** Simpson's rule at concrete partitions *)

Ltac eval_rule :=
  unfold simpson_rule, left_riemann_sum, right_riemann_sum, trapezoidal_rule;
  rewrite ?left_points_cons, ?right_points_cons; cbn [bind];
  unfold reduce_mean, tensor_sub, tensor_mul, tensor_add, scalar_mul, apply;
  simpl.

Lemma uniform_0_1_2 : uniform [0; 1; 2].
Proof.
  exists 1. intros i Hi.
  destruct i as [|[|i]]; cbn in *; try lra; lia.
Qed.

(** C1, at the partition [0; 1; 2] with [f(x) = x].  The partition is
    uniform and has odd length 3; the formula of the claim gives 2, the
    code returns [4/3]. *)
Theorem simpson_rule_weights_exchanged :
  let f := fun x : R => x in
  let h := [0; 1; 2] in
  uniform h /\ Nat.odd (length h) = true /\ (3 <= length h)%nat /\
  simpson_formula f h = 2 /\
  simpson_rule f h = Ok (4 / 3) /\
  simpson_rule f h <> Ok (simpson_formula f h).
Proof.
  cbv zeta.
  assert (F : simpson_formula (fun x => x) [0; 1; 2] = 2).
  { unfold simpson_formula, average_spacing, interior_sum. simpl. field. }
  assert (C : simpson_rule (fun x => x) [0; 1; 2] = Ok (4 / 3)).
  { eval_rule. f_equal. field. }
  split; [exact uniform_0_1_2|]. split; [reflexivity|]. split; [cbn; lia|].
  split; [exact F|]. split; [exact C|].
  rewrite F, C. intro E. injection E. lra.
Qed.

(** C3, at the partition [0; 1; 2] with the constant [c = 1].  The span
    is 2, the code returns [4/3]. *)
Theorem simpson_rule_constant_inexact :
  let c := 1 in
  let h := [0; 1; 2] in
  strictly_increasing h /\ uniform h /\ Nat.odd (length h) = true /\
  c * (last h 0 - nth 0 h 0) = 2 /\
  simpson_rule (fun _ => c) h = Ok (4 / 3).
Proof.
  cbv zeta. split.
  { intros i Hi. destruct i as [|[|i]]; cbn in *; try lra; lia. }
  split; [exact uniform_0_1_2|]. split; [reflexivity|].
  split; [cbn; lra|].
  eval_rule. f_equal. field.
Qed.

(** C7, at the partition [0; 1/2; 1] with [f(x) = x^2].  The partition
    is uniform over [0, 1] with odd length 3; Simpson's formula gives
    [1/3], the code returns [1/4]. *)
Theorem simpson_rule_square_inexact :
  let f := fun x => x * x in
  let h := [0; 1 / 2; 1] in
  uniform h /\ spans 0 1 h /\ Nat.odd (length h) = true /\
  simpson_formula f h = 1 / 3 /\
  simpson_rule f h = Ok (1 / 4) /\
  simpson_rule f h <> Ok (1 / 3).
Proof.
  cbv zeta.
  assert (F : simpson_formula (fun x => x * x) [0; 1 / 2; 1] = 1 / 3).
  { unfold simpson_formula, average_spacing, interior_sum. simpl. field. }
  assert (C : simpson_rule (fun x => x * x) [0; 1 / 2; 1] = Ok (1 / 4)).
  { eval_rule. f_equal. field. }
  split; [exact uniform_0_half_1|]. split; [split; reflexivity|].
  split; [reflexivity|]. split; [exact F|]. split; [exact C|].
  rewrite C. intro E. injection E. lra.
Qed.

(** ** Partitions the specification calls invalid *)

(** C2, refuted at concrete partitions: a partition of length 1, a
    partition that is not increasing, and an even-length partition given to
    [simpson_rule] all produce a number. *)
Lemma partition_not_validated :
  let f := fun x : R => x in
  (length [5] < 2)%nat /\
  left_riemann_sum f [5] = Ok 0 /\
  right_riemann_sum f [5] = Ok 0 /\
  trapezoidal_rule f [5] = Ok 0 /\
  ~ strictly_increasing [0; 2; 1] /\
  left_riemann_sum f [0; 2; 1] = Ok (-2) /\
  right_riemann_sum f [0; 2; 1] = Ok 3 /\
  trapezoidal_rule f [0; 2; 1] = Ok (1 / 2) /\
  simpson_rule f [0; 2; 1] = Ok (5 / 6) /\
  Nat.even (length [0; 1; 2; 3]) = true /\
  simpson_rule f [0; 1; 2; 3] = Ok (13 / 3).
Proof.
  cbv zeta.
  split; [cbn; lia|].
  split; [eval_rule; f_equal; lra|].
  split; [eval_rule; f_equal; lra|].
  split; [eval_rule; f_equal; lra|].
  split.
  { intro H. specialize (H 1%nat). cbn in H.
    assert (2 < 1) by (apply H; lia). lra. }
  split; [eval_rule; f_equal; lra|].
  split; [eval_rule; f_equal; lra|].
  split; [eval_rule; f_equal; lra|].
  split; [eval_rule; f_equal; field|].
  split; [reflexivity|].
  eval_rule. f_equal. field.
Qed.

(** ** First version of the notebook *)

Lemma unbound_t_raises (g : globals) (f : R -> R) (h : tensor) :
  lookup "tf" g <> None -> lookup "t" g = None ->
  Nb1.left_riemann_sum g f h = Raise (NameError "t")
  /\ Nb1.right_riemann_sum g f h = Raise (NameError "t").
Proof.
  intros Htf Ht. unfold Nb1.left_riemann_sum, Nb1.right_riemann_sum, load_global.
  rewrite Ht. destruct (lookup "tf" g); [|contradiction]. split; reflexivity.
Qed.

(** Had [t] been bound to the partition itself, the first version would
    compute what the second version does. *)
Lemma nb1_agrees_when_t_is_h (g : globals) (o : pyobj) (f : R -> R) (h : tensor) :
  lookup "tf" g = Some o -> lookup "t" g = Some (PyTensor h) ->
  Nb1.left_riemann_sum g f h = left_riemann_sum f h
  /\ Nb1.right_riemann_sum g f h = right_riemann_sum f h.
Proof.
  intros Htf Ht.
  unfold Nb1.left_riemann_sum, Nb1.right_riemann_sum, load_global.
  rewrite Htf, Ht. split; reflexivity.
Qed.

(** C9. In the first version of the notebook every call of
    [left_riemann_sum] or [right_riemann_sum] raises [NameError] for the
    name [t] and returns no value. *)
Theorem nb1_riemann_sums_raise_name_error (f : R -> R) (h : tensor) :
  Nb1.left_riemann_sum Nb1.nb_globals f h = Raise (NameError "t")
  /\ Nb1.right_riemann_sum Nb1.nb_globals f h = Raise (NameError "t").
Proof.
  apply unbound_t_raises; [discriminate | reflexivity].
Qed.


(** ** Simpson's rule on constants: the formula against the code *)

Lemma interior_parity_count (k : nat) :
  length (filter Nat.odd (seq 1 (2 * k + 1))) = S k
  /\ length (filter Nat.even (seq 1 (2 * k + 1))) = k.
Proof.
  induction k as [|k [IHo IHe]]; [split; reflexivity|].
  replace (2 * S k + 1)%nat with ((2 * k + 1) + 2)%nat by lia.
  rewrite seq_app, !filter_app, !length_app, IHo, IHe.
  cbn [seq filter].
  replace (1 + (2 * k + 1))%nat with (2 * k + 2)%nat by lia.
  replace (S (2 * k + 2)) with (2 * (S k) + 1)%nat by lia.
  rewrite Nat.odd_odd, Nat.even_odd.
  replace (2 * k + 2)%nat with (0 + 2 * (S k))%nat by lia.
  rewrite Nat.odd_add_mul_2, Nat.even_add_mul_2.
  cbn. split; lia.
Qed.

Lemma reduce_sum_constant (c : R) (l : list nat) :
  reduce_sum (map (fun _ => c) l) = INR (length l) * c.
Proof.
  induction l as [|i l IH]; [cbn; ring|].
  cbn [map reduce_sum fold_right]. fold (reduce_sum (map (fun _ => c) l)).
  rewrite IH. cbn [length]. rewrite S_INR. ring.
Qed.

Lemma average_spacing_span (x : R) (t : tensor) :
  average_spacing (x :: t) = (last (x :: t) 0 - x) / INR (length t).
Proof.
  unfold average_spacing.
  replace (length (x :: t) - 1)%nat with (length t) by (cbn [length]; lia).
  rewrite <- (adj_sum_index (fun a b => b - a) (x :: t) (length t) eq_refl).
  rewrite (adj_sum_telescope (fun u => u)). reflexivity.
Qed.

(** With the weights as the notebook's text gives them, a constant is
    integrated exactly, in exact real arithmetic, on every partition with
    an even number [2 (k + 1)] of sub-intervals. *)
Lemma simpson_formula_constant (c : R) (h : tensor) (k : nat) :
  length h = (2 * k + 3)%nat ->
  simpson_formula (fun _ => c) h = c * (last h 0 - nth 0 h 0).
Proof.
  intro L. destruct h as [|x t]; [cbn in L; lia|].
  unfold simpson_formula, interior_sum.
  rewrite average_spacing_span, !reduce_sum_constant, L.
  replace (2 * k + 3 - 2)%nat with (2 * k + 1)%nat by lia.
  destruct (interior_parity_count k) as [-> ->].
  replace (length t) with (2 * k + 2)%nat by (cbn [length] in L; lia).
  cbn [nth]. rewrite S_INR, plus_INR, mult_INR. cbn [INR].
  assert (0 <= INR k) by apply pos_INR.
  field. lra.
Qed.

(** With the weights as the code has them, the same constant is
    under-integrated by the factor [1 - 1 / (3 (k + 1))], again in exact
    real arithmetic. *)
Lemma simpson_rule_constant (c : R) (h : tensor) (k : nat) :
  length h = (2 * k + 3)%nat ->
  simpson_rule (fun _ => c) h
  = Ok (c * (last h 0 - nth 0 h 0) * (1 - 1 / (3 * (INR k + 1)))).
Proof.
  intro L. destruct h as [|x t]; [cbn in L; lia|].
  rewrite simpson_rule_computes. f_equal.
  unfold interior_sum.
  rewrite average_spacing_span, !reduce_sum_constant, L.
  replace (2 * k + 3 - 2)%nat with (2 * k + 1)%nat by lia.
  destruct (interior_parity_count k) as [-> ->].
  replace (length t) with (2 * k + 2)%nat by (cbn [length] in L; lia).
  cbn [nth]. rewrite S_INR, plus_INR, mult_INR. cbn [INR].
  assert (0 <= INR k) by apply pos_INR.
  field. lra.
Qed.

(** ** Further properties of the sub-interval rules *)






(** ** Failure and monotonicity of the four rules *)

Lemma is_ok_Ok {A : Type} (a : A) : is_ok (Ok a).
Proof. exact I. Qed.

(** X2.  A call raises exactly when the partition is empty, for each of the
    four functions, and the exception is the one [tf.slice] raises. *)
Theorem rules_raise_iff_empty (f : R -> R) (h : tensor) :
  (left_riemann_sum f h = Raise InvalidArgumentError <-> h = [])
  /\ (right_riemann_sum f h = Raise InvalidArgumentError <-> h = [])
  /\ (trapezoidal_rule f h = Raise InvalidArgumentError <-> h = [])
  /\ (simpson_rule f h = Raise InvalidArgumentError <-> h = [])
  /\ (h <> [] ->
      is_ok (left_riemann_sum f h) /\ is_ok (right_riemann_sum f h) /\
      is_ok (trapezoidal_rule f h) /\ is_ok (simpson_rule f h)).
Proof.
  destruct h as [|x t].
  - repeat split; try reflexivity; intros; congruence.
  - rewrite left_riemann_sum_cons, right_riemann_sum_cons,
      trapezoidal_rule_cons, simpson_rule_computes.
    repeat split; intros; try discriminate; try apply is_ok_Ok.
Qed.







(** X1.  On every partition of length at least 2 [simpson_rule] returns a
    third of the mean of the consecutive differences [h[i+1] - h[i]], times
    the sum in which the odd interior indices carry weight 2 and the even
    interior indices weight 4. *)
Theorem simpson_rule_exchanged_weights (f : R -> R) (h : tensor) :
  (2 <= length h)%nat ->
  simpson_rule f h
  = Ok (average_spacing h / 3 *
        (f (nth 0 h 0) + 2 * interior_sum Nat.odd f h
                       + 4 * interior_sum Nat.even f h + f (last h 0))).
Proof.
  intro L. assert (L1 : (1 <= length h)%nat) by lia.
  destruct (nonempty_cons h L1) as (x & t & ->).
  rewrite simpson_rule_computes. reflexivity.
Qed.

Lemma simpson_rule_exchanged_weights_witness :
  let f := fun x => x * x in
  let h := [0; 1; 2; 3; 4] in
  (2 <= length h)%nat /\
  simpson_rule f h
  = Ok (average_spacing h / 3 *
        (f (nth 0 h 0) + 2 * interior_sum Nat.odd f h
                       + 4 * interior_sum Nat.even f h + f (last h 0))).
Proof.
  cbv zeta.
  assert (L : (2 <= length [0; 1; 2; 3; 4]%R)%nat) by (cbn; lia).
  split; [exact L|].
  exact (simpson_rule_exchanged_weights (fun x => x * x) [0; 1; 2; 3; 4] L).
Defined.

(** ** The driver cell: partitions and loop *)







(** ** The first version with a global [t] left over from elsewhere *)

Lemma tf_slice_within (h : tensor) (b s : nat) :
  (b + s <= length h)%nat ->
  tf_slice h (Z.of_nat b) (Z.of_nat s) = Ok (firstn s (skipn b h)).
Proof.
  intro Hs. unfold tf_slice, get_shape0.
  replace (Z.of_nat b <? 0)%Z with false by (symmetry; apply Z.ltb_ge; lia).
  replace (Z.of_nat (length h) <? Z.of_nat b)%Z with false
    by (symmetry; apply Z.ltb_ge; lia).
  replace (Z.of_nat s =? -1)%Z with false by (symmetry; apply Z.eqb_neq; lia).
  replace (Z.of_nat s <? 0)%Z with false by (symmetry; apply Z.ltb_ge; lia).
  replace (Z.of_nat (length h) <? Z.of_nat b + Z.of_nat s)%Z with false
    by (symmetry; apply Z.ltb_ge; lia).
  cbn [orb]. now rewrite !Nat2Z.id.
Qed.

Lemma tf_slice_beyond (h : tensor) (b s : nat) :
  (length h < b + s)%nat ->
  tf_slice h (Z.of_nat b) (Z.of_nat s) = Raise InvalidArgumentError.
Proof.
  intro Hs. unfold tf_slice, get_shape0.
  replace (Z.of_nat b <? 0)%Z with false by (symmetry; apply Z.ltb_ge; lia).
  destruct (Z.of_nat (length h) <? Z.of_nat b)%Z; [reflexivity|].
  replace (Z.of_nat s =? -1)%Z with false by (symmetry; apply Z.eqb_neq; lia).
  replace (Z.of_nat s <? 0)%Z with false by (symmetry; apply Z.ltb_ge; lia).
  replace (Z.of_nat (length h) <? Z.of_nat b + Z.of_nat s)%Z with true
    by (symmetry; apply Z.ltb_lt; lia).
  reflexivity.
Qed.

Lemma prefix_slices (h : tensor) (n : nat) :
  (1 <= n <= length h)%nat ->
  let p := firstn n h in
  tf_slice p 0 (get_shape0 p - 1) = tf_slice h 0 (Z.of_nat n - 1)
  /\ tf_slice p 1 (get_shape0 p - 1) = tf_slice h 1 (Z.of_nat n - 1).
Proof.
  intros Hn p.
  assert (Lp : length p = n) by (unfold p; rewrite length_firstn; lia).
  unfold get_shape0. rewrite Lp.
  replace (Z.of_nat n - 1)%Z with (Z.of_nat (n - 1)) by lia.
  change 0%Z with (Z.of_nat 0). change 1%Z with (Z.of_nat 1).
  rewrite !tf_slice_within by lia.
  unfold p. split; f_equal.
  - rewrite !skipn_O, firstn_firstn. f_equal. lia.
  - replace (firstn n h) with (firstn (1 + (n - 1)) h) by (f_equal; lia).
    rewrite <- firstn_skipn_comm, firstn_firstn. f_equal. lia.
Qed.

(** X14.  In the first version a global [t] bound to some tensor [v] decides
    how much of [h] is used: with [1 <= length v <= length h] the two
    functions return the Riemann sums over the first [length v] points of
    [h] only, and with [length v > length h] they raise. *)
Theorem nb1_global_t_decides (g : globals) (o : pyobj) (v : tensor)
  (f : R -> R) (h : tensor) :
  lookup "tf" g = Some o -> lookup "t" g = Some (PyTensor v) ->
  (1 <= length v)%nat ->
  ((length v <= length h)%nat ->
     Nb1.left_riemann_sum g f h = left_riemann_sum f (firstn (length v) h)
     /\ Nb1.right_riemann_sum g f h = right_riemann_sum f (firstn (length v) h))
  /\ ((length h < length v)%nat ->
     Nb1.left_riemann_sum g f h = Raise InvalidArgumentError
     /\ Nb1.right_riemann_sum g f h = Raise InvalidArgumentError).
Proof.
  intros Htf Ht Lv.
  unfold Nb1.left_riemann_sum, Nb1.right_riemann_sum, load_global.
  rewrite Htf, Ht. cbn [bind obj_get_shape0].
  split; intro Lh.
  - destruct (prefix_slices h (length v) (conj Lv Lh)) as [E0 E1].
    unfold left_riemann_sum, right_riemann_sum. rewrite E0, E1.
    split; reflexivity.
  - unfold get_shape0.
    replace (Z.of_nat (length v) - 1)%Z with (Z.of_nat (length v - 1)) by lia.
    change 1%Z with (Z.of_nat 1).
    rewrite (tf_slice_beyond h 1 (length v - 1)) by lia.
    change 0%Z with (Z.of_nat 0).
    destruct (le_lt_dec (0 + (length v - 1)) (length h)) as [Hin | Hout].
    + rewrite (tf_slice_within h 0 (length v - 1)) by exact Hin.
      split; reflexivity.
    + rewrite (tf_slice_beyond h 0 (length v - 1)) by exact Hout.
      split; reflexivity.
Qed.

Lemma nb1_global_t_decides_witness :
  let g := [("tf", PyOther); ("t", PyTensor [7; 8])]%string in
  let f := fun x : R => x in
  let h := [0; 1; 3] in
  lookup "tf" g = Some PyOther /\ lookup "t" g = Some (PyTensor [7; 8]) /\
  (1 <= length [7; 8]%R)%nat /\
  ((length [7; 8]%R <= length h)%nat ->
     Nb1.left_riemann_sum g f h = left_riemann_sum f (firstn (length [7; 8]%R) h)
     /\ Nb1.right_riemann_sum g f h = right_riemann_sum f (firstn (length [7; 8]%R) h))
  /\ ((length h < length [7; 8]%R)%nat ->
     Nb1.left_riemann_sum g f h = Raise InvalidArgumentError
     /\ Nb1.right_riemann_sum g f h = Raise InvalidArgumentError).
Proof.
  cbv zeta.
  assert (L : (1 <= length [7; 8]%R)%nat) by (cbn; lia).
  split; [reflexivity|]. split; [reflexivity|]. split; [exact L|].
  exact (nb1_global_t_decides [("tf", PyOther); ("t", PyTensor [7; 8])]%string
           PyOther [7; 8] (fun x => x) [0; 1; 3] eq_refl eq_refl L).
Defined.


(** ** The trapezoidal sum *)

(** C5, as the code behaves.  For a partition of length [n + 1 >= 2],
    [trapezoidal_rule f h] returns the sum over [i < n] of
    [1/2 * (h[i+1] - h[i]) * (f(h[i]) + f(h[i+1]))]. *)
Theorem trapezoidal_rule_sum_formula (f : R -> R) (h : tensor) (n : nat) :
  length h = S n -> (1 <= n)%nat ->
  trapezoidal_rule f h
  = Ok (sum_n n (fun i => 1 / 2 * (nth (S i) h 0 - nth i h 0)
                                * (f (nth i h 0) + f (nth (S i) h 0)))).
Proof.
  intros L _. destruct h as [|x t]; [discriminate|].
  rewrite trapezoidal_rule_cons, (adj_sum_index _ _ n L). reflexivity.
Qed.

Lemma trapezoidal_rule_sum_formula_witness :
  let f := fun x => x * x in
  let h := [0; 1; 3] in
  length h = 3%nat /\ (1 <= 2)%nat /\
  trapezoidal_rule f h
  = Ok (sum_n 2 (fun i => 1 / 2 * (nth (S i) h 0 - nth i h 0)
                                * (f (nth i h 0) + f (nth (S i) h 0)))).
Proof.
  cbv zeta. split; [reflexivity|]. split; [lia|].
  apply (trapezoidal_rule_sum_formula (fun x => x * x) [0; 1; 3] 2);
    [reflexivity | lia].
Defined.

(** ** Rounding: identities of the real numbers that float64 breaks *)

(** C5, refuted in float64 at [h = [0.1; 0.3]] with [f(x) = x].  The
    partition has one sub-interval, so the order of summation plays no
    part: the trapezoidal rule returns [0.04], the Riemann sums [0.02] and
    [0.05999999999999999], and their average is
    [0.039999999999999994]. *)
Lemma trapezoid_average_rounds :
  Forall (fun reduce_sum =>
            F64.left_riemann_sum reduce_sum (fun x => x) [0.1; 0.3]%float
            = Ok 0.02%float
            /\ F64.right_riemann_sum reduce_sum (fun x => x) [0.1; 0.3]%float
               = Ok 0.05999999999999999%float
            /\ F64.trapezoidal_rule reduce_sum (fun x => x) [0.1; 0.3]%float
               = Ok 0.04%float)
         F64.reductions
  /\ ((0.02 + 0.05999999999999999) / 2)%float = 0.039999999999999994%float
  /\ PrimFloat.eqb 0.04 0.039999999999999994 = false.
Proof.
  split; [|split; vm_compute; reflexivity].
  unfold F64.reductions.
  repeat (apply Forall_cons; [repeat split; vm_compute; reflexivity|]).
  apply Forall_nil.
Qed.





(** ** Reversed partitions *)


